(** * gatsby-source-s3: a shallow embedding of [src/source-nodes.ts]

    The module lists the objects of a bucket, keeps the images, asks
    [createRemoteFileNode] to download each of them and hands one
    [S3ImageAsset] node per downloaded image to the host's [createNode].

    JavaScript objects are finite maps from property names to values,
    promises are their settled state, a synchronous [throw] is kept apart
    from a rejected promise, and every call that leaves the module is
    recorded, per listed object, in the order the object's own code makes
    it. *)

From Stdlib Require Import Ascii String ZArith List.
From stdpp Require Import gmap strings list fin_maps pretty.

Set Warnings "-register-all".
Open Scope char_scope.
Open Scope string_scope.

(** ** Values *)

(** The values the module touches: primitives and plain data objects.
    Numbers are integers here (no [NaN]); objects carry data only, so a
    method call on anything but a string is a [TypeError]. *)
Inductive value : Type :=
  | VUndefined
  | VNull
  | VBool (b : bool)
  | VNum (n : Z)
  | VStr (s : string)
  | VObj (o : gmap string value).

Abbreviation object := (gmap string value).

(** What [!v] tests. *)
Definition truthy (v : value) : bool :=
  match v with
  | VUndefined | VNull => false
  | VBool b => b
  | VNum n => negb (n =? 0)%Z
  | VStr s => negb (String.eqb s "")
  | VObj _ => true
  end.

(** [_.get(v, k)] for a single property name: [undefined] when [v] is not
    an object or has no such property. *)
Definition lodash_get (v : value) (k : string) : value :=
  match v with
  | VObj o => match o !! k with Some x => x | None => VUndefined end
  | _ => VUndefined
  end.

(** ** Control: exceptions, promises, returned values *)

(** What a [throw] or a rejection carries: the engine's [TypeError] (its
    message text is engine-specific) or an arbitrary value. *)
Inductive thrown : Type :=
  | TypeError
  | Thrown (reason : value).

(** A synchronous call either returns or throws. *)
Inductive completion (A : Type) : Type :=
  | Normal (a : A)
  | Throw (e : thrown).
Arguments Normal {A} a.
Arguments Throw {A} e.

(** A promise, by the state it settles in. *)
Inductive promise (A : Type) : Type :=
  | Fulfilled (a : A)
  | Rejected (e : thrown).
Arguments Fulfilled {A} a.
Arguments Rejected {A} e.

(** What a function typed [any] or [Promise<any>] hands back: a plain value
    or a promise object. *)
Inductive returned : Type :=
  | Plain (v : value)
  | Promised (p : promise value).

(** A promise object is an object, hence truthy. *)
Definition truthy_returned (r : returned) : bool :=
  match r with
  | Plain v => truthy v
  | Promised _ => true
  end.

(** [await r] inside a [try]: a rejection becomes a throw. *)
Definition await (r : returned) : completion value :=
  match r with
  | Plain v => Normal v
  | Promised (Fulfilled v) => Normal v
  | Promised (Rejected e) => Throw e
  end.

(** [await f(...)] inside a [try], for a call [f(...)] that may itself
    throw before it returns anything to await. *)
Definition awaited (c : completion returned) : completion value :=
  match c with
  | Normal p => await p
  | Throw err => Throw err
  end.

(** [_.compact(array)]: drops the falsy elements. *)
Definition lodash_compact (l : list returned) : list returned :=
  List.filter truthy_returned l.

(** [Promise.all(array)]: the values in array order, or the rejection of an
    element that rejects. *)
Fixpoint Promise_all (l : list returned) : promise (list value) :=
  match l with
  | [] => Fulfilled []
  | r :: rest =>
      match await r with
      | Throw e => Rejected e
      | Normal v =>
          match Promise_all rest with
          | Fulfilled vs => Fulfilled (v :: vs)
          | Rejected e => Rejected e
          end
      end
  end.

(** ** Strings *)

Definition dquote : ascii := "034".

(** The global replacement of the double-quote character by the empty
    string, as [ETag.replace] is called in [getEntityNodeFields]. *)
Fixpoint removeQuotes (s : string) : string :=
  match s with
  | EmptyString => EmptyString
  | String c rest =>
      if Ascii.eqb c dquote then removeQuotes rest
      else String c (removeQuotes rest)
  end.

(** ** The outside world *)

(** The options the host passes as second argument. *)
Record SourceS3Options : Type := {
  accessKeyId : string;
  secretAccessKey : string;
  bucketName : string;
  domain : option string;
  protocol : option string
}.

(** The configuration object given to [new S3(...)]. *)
Record S3Config : Type := {
  cfg_accessKeyId : string;
  cfg_secretAccessKey : string;
  cfg_apiVersion : string;
  cfg_endpoint : string;
  cfg_s3ForcePathStyle : bool;
  cfg_signatureVersion : string
}.

(** [S3.ListObjectsV2Output], as far as the module reads it. *)
Record ListObjectsV2Output : Type := {
  Contents : option (list object)
}.

(** Everything the module is given from outside: the imports from
    [aws-sdk], [gatsby-source-filesystem], [mime-types] and [./utils], and
    the host's callbacks.  [createRemoteFileNode] is keyed by the URL, the
    other members of its argument being the host's own handles; a throw of
    it and a rejection of its promise are the same thing under the [await]
    in the [try] block, so both are [Rejected].  [errorText] is the text the
    engine puts in a template literal for a caught error, which depends on
    the engine and on the error object and is taken to succeed. *)
Record Env : Type := {
  listObjectsV2 : S3Config -> string -> promise ListObjectsV2Output;
  mime_lookup : string -> option string;
  isImage : object -> bool;
  constructS3UrlForAsset : string -> string -> value -> string -> option string;
  createRemoteFileNode : string -> promise value;
  createNodeId : string -> string;
  createNode : object -> completion returned;
  errorText : thrown -> string
}.

(** A call that leaves the module, or a rejected promise it leaves behind
    with the given reason. *)
Inductive event : Type :=
  | CallCreateRemoteFileNode (url : string)
  | CallCreateNode (node : object)
  | UnawaitedRejection (reason : thrown).

(** [mime.lookup(path)]: [false] unless [path] is a string with a known
    extension. *)
Definition mimeLookup (env : Env) (path : value) : value :=
  match path with
  | VStr s =>
      match mime_lookup env s with
      | Some m => VStr m
      | None => VBool false
      end
  | _ => VBool false
  end.

(** ** The module *)

Definition S3SourceGatsbyNodeType : string := "S3ImageAsset".

Record EntityNodeFields : Type := {
  absolutePath : value;
  fileNodeId : value;
  Key : value;
  mediaType : value;
  objectHash : string
}.

(** [const { ETag, Key = '' } = entity]: the default applies to a missing
    property and to an [undefined] one. *)
Definition keyOrDefault (entity : object) : value :=
  match entity !! "Key" with
  | None | Some VUndefined => VStr ""
  | Some v => v
  end.

Definition getEntityNodeFields (env : Env) (entity : object) (fileNode : value)
  : completion EntityNodeFields :=
  let Key := keyOrDefault entity in
  let mediaType := mimeLookup env Key in
  match entity !! "ETag" with
  | Some (VStr ETag) =>
      Normal {| absolutePath := lodash_get fileNode "absolutePath";
                fileNodeId := lodash_get fileNode "id";
                Key := Key;
                mediaType := mediaType;
                objectHash := removeQuotes ETag |}
  | _ => Throw TypeError
  end.

(** The [internal] block of a node. *)
Definition internalBlock (url : string) (f : EntityNodeFields) : object :=
  <["type" := VStr S3SourceGatsbyNodeType]>
    (<["mediaType" := mediaType f]>
      (<["contentDigest" := VStr (objectHash f)]>
        (<["content" := VStr url]> ∅))).

(** The object literal given to [createNode]: the entity spread first, then
    the six named properties, each replacing an entity property of the
    same name. *)
Definition nodeLiteral (env : Env) (entity : object) (url : string)
    (f : EntityNodeFields) : object :=
  <["internal" := VObj (internalBlock url f)]>
    (<["parent" := fileNodeId f]>
      (<["Key" := Key f]>
        (<["id" := VStr (createNodeId env (objectHash f))]>
          (<["ETag" := VStr (objectHash f)]>
            (<["absolutePath" := absolutePath f]> entity))))).

Definition fileNodeMissing : string :=
  "File node must be defined when invoking `createS3ImageAssetNode`.".

(** Returns what the call returns or throws, and the calls it made. *)
Definition createS3ImageAssetNode (env : Env) (entity : object)
    (fileNode : value) (url : string) : completion returned * list event :=
  if negb (truthy fileNode) then
    (Normal (Promised (Rejected (Thrown (VStr fileNodeMissing)))), [])
  else
    match getEntityNodeFields env entity fileNode with
    | Throw e => (Throw e, [])
    | Normal f =>
        let node := nodeLiteral env entity url f in
        (createNode env node, [CallCreateNode node])
    end.

(** The [try] block of the callback given to [s3Entities.map]: the value it
    returns or the exception it raises, and the calls made on the way. *)
Definition tryBlock (env : Env) (entity : object) (url : string)
  : completion value * list event :=
  match createRemoteFileNode env url with
  | Rejected err => (Throw err, [CallCreateRemoteFileNode url])
  | Fulfilled fileNode =>
      if negb (truthy fileNode) then
        (Normal VUndefined, [CallCreateRemoteFileNode url])
      else
        let '(r, calls) := createS3ImageAssetNode env entity fileNode url in
        (awaited r, CallCreateRemoteFileNode url :: calls)
  end.

(** The reason of the promise the [catch] clause rejects: the string made
    by the template literal from its fixed text and the caught error. *)
Definition catchReason (env : Env) (err : thrown) : thrown :=
  Thrown (VStr ("Error creating S3ImageAsset node: " +:+ errorText env err)).

(** The async callback given to [s3Entities.map]: the promise it returns
    and the calls this object causes, in the order it makes them.  The
    [catch] clause builds a rejected promise nobody awaits and falls off
    the end of the function, so the callback's promise is fulfilled with
    [undefined]. *)
Definition mapCallback (env : Env) (bucketName domain protocol : string)
    (entity : object) : returned * list event :=
  if negb (isImage env entity) then (Promised (Fulfilled VUndefined), [])
  else
    match constructS3UrlForAsset env bucketName domain
            (lodash_get (VObj entity) "Key") protocol with
    | None => (Promised (Fulfilled VUndefined), [])
    | Some url =>
        if String.eqb url "" then (Promised (Fulfilled VUndefined), [])
        else
          match tryBlock env entity url with
          | (Normal v, calls) => (Promised (Fulfilled v), calls)
          | (Throw err, calls) =>
              (Promised (Fulfilled VUndefined),
               (calls ++ [UnawaitedRejection (catchReason env err)])%list)
          end
    end.

(** What a run amounts to: the state the returned promise settles in, and
    for each listed object, in listing order, the calls made on its behalf.
    The objects' downloads overlap in time; only each object's own order is
    recorded. *)
Record Run : Type := {
  outcome : promise (list value);
  perObject : list (list event)
}.

(** All calls of a run. *)
Definition calls (r : Run) : list event := concat (perObject r).

(** [domain = 's3.amazonaws.com'] and [protocol = 'http'] in the parameter
    list: the default stands in for an option left out. *)
Definition domainOf (options : SourceS3Options) : string :=
  default "s3.amazonaws.com" (domain options).

Definition protocolOf (options : SourceS3Options) : string :=
  default "http" (protocol options).

(** The argument of [new S3(...)]. *)
Definition S3Instance (options : SourceS3Options) : S3Config :=
  {| cfg_accessKeyId := accessKeyId options;
     cfg_secretAccessKey := secretAccessKey options;
     cfg_apiVersion := "2006-03-01";
     cfg_endpoint := protocolOf options +:+ "://" +:+ domainOf options;
     cfg_s3ForcePathStyle := true;
     cfg_signatureVersion := "v4" |}.

(** The awaited [listObjectsV2({ Bucket: bucketName }).promise()]. *)
Definition listObjectsResponse (env : Env) (options : SourceS3Options)
  : promise ListObjectsV2Output :=
  listObjectsV2 env (S3Instance options) (bucketName options).

(** The callback as [sourceNodes] closes it over its options. *)
Definition perEntity (env : Env) (options : SourceS3Options)
  : object -> returned * list event :=
  mapCallback env (bucketName options) (domainOf options) (protocolOf options).

Definition sourceNodes (env : Env) (options : SourceS3Options) : Run :=
  match listObjectsResponse env options with
  | Rejected err => {| outcome := Rejected err; perObject := [] |}
  | Fulfilled response =>
      match Contents response with
      | None | Some [] => {| outcome := Fulfilled []; perObject := [] |}
      | Some s3Entities =>
          let started := perEntity env options <$> s3Entities in
          {| outcome := Promise_all (lodash_compact (fst <$> started));
             perObject := snd <$> started |}
      end
  end.

(** ** The helpers of [./utils] and a sample environment *)

(** The part of a MIME type before its slash. *)
Fixpoint topLevelType (m : string) : string :=
  match m with
  | EmptyString => EmptyString
  | String c rest =>
      if Ascii.eqb c "/" then EmptyString else String c (topLevelType rest)
  end.

(** Modelled from the spec: [isImage] of [./utils], which is not among the
    sources.  It "classifies by deriving a MIME type from the object key's
    extension and testing whether its top-level type is image"; an object
    "whose key yields no resolvable MIME type, or a non-image type" is
    excluded. *)
Definition specIsImage (mime : string -> option string) (entity : object)
  : bool :=
  match lodash_get (VObj entity) "Key" with
  | VStr key =>
      match mime key with
      | Some m => String.eqb (topLevelType m) "image"
      | None => false
      end
  | _ => false
  end.

(** Modelled from the spec: [constructS3UrlForAsset] of [./utils], which is
    not among the sources.  It is protocol, "://", domain, "/", bucket,
    "/", key "for any non-empty key" and "returns no result when key is
    empty/absent". *)
Definition specConstructS3UrlForAsset (bucketName domain : string)
    (key : value) (protocol : string) : option string :=
  match key with
  | VStr k =>
      if String.eqb k "" then None
      else Some (protocol +:+ "://" +:+ domain +:+ "/" +:+ bucketName
                 +:+ "/" +:+ k)
  | _ => None
  end.

(** The text after the last dot of a path, if it has a dot. *)
Fixpoint extensionFrom (ext : option string) (path : string) : option string :=
  match path with
  | EmptyString => ext
  | String c rest =>
      if Ascii.eqb c "." then extensionFrom (Some EmptyString) rest
      else extensionFrom (option_map (fun e => e +:+ String c EmptyString) ext)
                         rest
  end.

(** A few rows of the table behind [mime.lookup]. *)
Definition sampleMime (path : string) : option string :=
  match extensionFrom None path with
  | Some "jpg" | Some "jpeg" => Some "image/jpeg"
  | Some "png" => Some "image/png"
  | Some "gif" => Some "image/gif"
  | Some "txt" => Some "text/plain"
  | Some "json" => Some "application/json"
  | _ => None
  end.

(** How an engine prints the errors of the worked examples: the
    [TypeError] of a method call on [undefined] with one engine's wording,
    and primitives and plain objects as the language fixes them. *)
Definition sampleErrorText (err : thrown) : string :=
  match err with
  | TypeError => "TypeError: Cannot read property 'replace' of undefined"
  | Thrown VUndefined => "undefined"
  | Thrown VNull => "null"
  | Thrown (VBool true) => "true"
  | Thrown (VBool false) => "false"
  | Thrown (VNum n) => pretty n
  | Thrown (VStr s) => s
  | Thrown (VObj _) => "[object Object]"
  end.

(** An environment for worked examples: the bucket holds [contents], the
    download helper behaves as [fetch] says, node ids are the seed behind
    "id-", and [createNode] answers with a promise of the node. *)
Definition sampleEnv (contents : option (list object))
    (fetch : string -> promise value) : Env :=
  {| listObjectsV2 := fun _ _ => Fulfilled {| Contents := contents |};
     mime_lookup := sampleMime;
     isImage := specIsImage sampleMime;
     constructS3UrlForAsset := specConstructS3UrlForAsset;
     createRemoteFileNode := fetch;
     createNodeId := fun seed => "id-" +:+ seed;
     createNode := fun node => Normal (Promised (Fulfilled (VObj node)));
     errorText := sampleErrorText |}.

Definition sampleOptions : SourceS3Options :=
  {| accessKeyId := "AKIA";
     secretAccessKey := "secret";
     bucketName := "my-bucket";
     domain := None;
     protocol := Some "https" |}.

(** A download that succeeds for every URL. *)
Definition fetchOk (url : string) : promise value :=
  Fulfilled (VObj (<["absolutePath" := VStr ("/cache/" +:+ url)]>
                     (<["id" := VStr ("file-" +:+ url)]> ∅))).

(** The quoted form in which S3 reports an ETag. *)
Definition quoted (hash : string) : string :=
  String dquote (hash +:+ String dquote EmptyString).

Definition s3Object (key etag : string) : object :=
  <["Size" := VNum 1024]>
    (<["ETag" := VStr etag]> (<["Key" := VStr key]> ∅)).

Definition catJpg : object := s3Object "photos/cat.jpg" (quoted "abc123").
Definition readmeTxt : object := s3Object "readme.txt" (quoted "def456").
Definition dogPng : object := s3Object "dog.png" (quoted "0a1b2c").

(** ** Vocabulary of the statements *)

(** How many double quotes a string holds. *)
Fixpoint countQuotes (s : string) : nat :=
  match s with
  | EmptyString => 0
  | String c rest =>
      if Ascii.eqb c dquote then S (countQuotes rest) else countQuotes rest
  end.

(** [OnlyQuotesDropped s h]: reading [s] from left to right and leaving out
    double quotes, and nothing but double quotes, gives [h]. *)
Inductive OnlyQuotesDropped : string -> string -> Prop :=
  | oqd_end : OnlyQuotesDropped EmptyString EmptyString
  | oqd_drop s h :
      OnlyQuotesDropped s h -> OnlyQuotesDropped (String dquote s) h
  | oqd_keep c s h :
      c <> dquote ->
      OnlyQuotesDropped s h -> OnlyQuotesDropped (String c s) (String c h).

(** The properties the node literal sets after the spread. *)
Definition setByLiteral : list string :=
  ["absolutePath"; "ETag"; "id"; "Key"; "parent"; "internal"].

(** The array elements that are promise objects. *)
Definition isPromise (r : returned) : Prop :=
  match r with Promised _ => True | Plain _ => False end.

(** The value the callback's promise is fulfilled with. *)
Definition slotOf (r : returned) : value :=
  match r with
  | Promised (Fulfilled v) => v
  | _ => VUndefined
  end.

(** A download that fails for the URL [bad] and succeeds elsewhere. *)
Definition fetchFailingAt (bad : string) (url : string) : promise value :=
  if String.eqb url bad then Rejected (Thrown (VStr "ECONNRESET"))
  else fetchOk url.

(** A download that yields [null] for the URL [bad] and succeeds elsewhere. *)
Definition fetchNothingAt (bad : string) (url : string) : promise value :=
  if String.eqb url bad then Fulfilled VNull else fetchOk url.

Definition catUrl : string :=
  "https://s3.amazonaws.com/my-bucket/photos/cat.jpg".

(** The file node the sample download yields for [catUrl]. *)
Definition catFile : value :=
  VObj (<["absolutePath" := VStr ("/cache/" +:+ catUrl)]>
          (<["id" := VStr ("file-" +:+ catUrl)]> ∅)).

(** A listed object without an [ETag]. *)
Definition noETagPng : object := <["Key" := VStr "logo.png"]> ∅.

(** The same picture under another key. *)
Definition catCopy : object := s3Object "copies/cat.jpeg" (quoted "abc123").

(** A truthy file node without properties. *)
Definition bareFile : value := VObj ∅.

(** The URLs of the download calls in a record of calls, in order. *)
Definition downloads (cs : list event) : list string :=
  omap (fun ev => match ev with
                  | CallCreateRemoteFileNode url => Some url
                  | _ => None
                  end) cs.

(** The nodes handed to [createNode] in a record of calls, in order. *)
Definition createdNodes (cs : list event) : list object :=
  omap (fun ev => match ev with
                  | CallCreateNode node => Some node
                  | _ => None
                  end) cs.

(** The URL the callback goes on with: the object is an image and the URL
    built for its key is truthy. *)
Definition usableUrl (env : Env) (bucketName domain protocol : string)
    (entity : object) : option string :=
  if isImage env entity then
    match constructS3UrlForAsset env bucketName domain
            (lodash_get (VObj entity) "Key") protocol with
    | Some url => if String.eqb url "" then None else Some url
    | None => None
    end
  else None.

(** An environment whose listing call fails. *)
Definition offlineEnv : Env :=
  {| listObjectsV2 := fun _ _ => Rejected (Thrown (VStr "AccessDenied"));
     mime_lookup := sampleMime;
     isImage := specIsImage sampleMime;
     constructS3UrlForAsset := specConstructS3UrlForAsset;
     createRemoteFileNode := fetchOk;
     createNodeId := fun seed => "id-" +:+ seed;
     createNode := fun node => Normal (Promised (Fulfilled (VObj node)));
     errorText := sampleErrorText |}.

(** An environment whose classifier lets every object through. *)
Definition lenientEnv (contents : option (list object)) : Env :=
  {| listObjectsV2 := fun _ _ => Fulfilled {| Contents := contents |};
     mime_lookup := sampleMime;
     isImage := fun _ => true;
     constructS3UrlForAsset := specConstructS3UrlForAsset;
     createRemoteFileNode := fetchOk;
     createNodeId := fun seed => "id-" +:+ seed;
     createNode := fun node => Normal (Promised (Fulfilled (VObj node)));
     errorText := sampleErrorText |}.

(** A listed object without a [Key]. *)
Definition noKey : object := <["ETag" := VStr (quoted "777")]> ∅.

(** The fields of [photos/cat.jpg] downloaded to [catFile]. *)
Definition catFields : EntityNodeFields :=
  {| absolutePath := VStr ("/cache/" +:+ catUrl);
     fileNodeId := VStr ("file-" +:+ catUrl);
     Key := VStr "photos/cat.jpg";
     mediaType := VStr "image/jpeg";
     objectHash := "abc123" |}.

(** * Properties *)

(** ** Quotes *)

Lemma removeQuotes_countQuotes (s : string) : countQuotes (removeQuotes s) = 0.
Proof.
  induction s as [|c s IH]; simpl; [reflexivity|].
  destruct (Ascii.eqb c dquote) eqn:E; simpl; [assumption|].
  rewrite E. assumption.
Qed.

Lemma removeQuotes_drops_only_quotes (s : string) :
  OnlyQuotesDropped s (removeQuotes s).
Proof.
  induction s as [|c s IH]; simpl; [constructor|].
  destruct (Ascii.eqb c dquote) eqn:E.
  - apply Ascii.eqb_eq in E. subst c. by constructor.
  - apply Ascii.eqb_neq in E. by constructor.
Qed.

(** The relation leaves no choice: it is the graph of [removeQuotes]. *)
Lemma OnlyQuotesDropped_removeQuotes (s h : string) :
  OnlyQuotesDropped s h -> h = removeQuotes s.
Proof.
  induction 1 as [|s h _ IH|c s h Hc _ IH]; simpl.
  - reflexivity.
  - assumption.
  - apply Ascii.eqb_neq in Hc. rewrite Hc. by f_equal.
Qed.

Lemma removeQuotes_id (s : string) : countQuotes s = 0 -> removeQuotes s = s.
Proof.
  induction s as [|c s IH]; simpl; [reflexivity|].
  destruct (Ascii.eqb c dquote); [discriminate|].
  intros H. f_equal. auto.
Qed.

Lemma string_app_cons (c : ascii) (s t : string) :
  String c s +:+ t = String c (s +:+ t).
Proof. reflexivity. Qed.

Lemma string_app_empty (s : string) : s +:+ EmptyString = s.
Proof.
  induction s as [|c s IH]; [reflexivity|].
  by rewrite string_app_cons, IH.
Qed.

Lemma removeQuotes_app (s t : string) :
  removeQuotes (s +:+ t) = removeQuotes s +:+ removeQuotes t.
Proof.
  induction s as [|c s IH]; [reflexivity|].
  rewrite string_app_cons. simpl.
  destruct (Ascii.eqb c dquote); [assumption|].
  by rewrite string_app_cons, IH.
Qed.

Lemma removeQuotes_quoted (h : string) :
  countQuotes h = 0 -> removeQuotes (quoted h) = h.
Proof.
  intros H. unfold quoted. simpl. rewrite removeQuotes_app. simpl.
  rewrite removeQuotes_id by assumption. apply string_app_empty.
Qed.

(** ** Promises *)

(** Compaction keeps an array of promises as it is. *)
Lemma lodash_compact_promises (l : list returned) :
  Forall isPromise l -> lodash_compact l = l.
Proof.
  induction 1 as [|r l Hr _ IH]; [reflexivity|].
  destruct r; [contradiction|]. unfold lodash_compact in *. simpl.
  by rewrite IH.
Qed.

Lemma Promise_all_fulfilled (vs : list value) :
  Promise_all ((fun v => Promised (Fulfilled v)) <$> vs) = Fulfilled vs.
Proof.
  induction vs as [|v vs IH]; [reflexivity|].
  rewrite fmap_cons. simpl. by rewrite IH.
Qed.

(** ** The callback *)

(** The callback's promise never rejects. *)
Lemma mapCallback_fulfilled env b d p entity :
  exists v, fst (mapCallback env b d p entity) = Promised (Fulfilled v).
Proof.
  unfold mapCallback.
  destruct (isImage env entity); simpl; [|eauto].
  destruct (constructS3UrlForAsset _ _ _ _ _) as [url|]; [|eauto].
  destruct (String.eqb url ""); [eauto|].
  destruct (tryBlock env entity url) as [[v|err] cs]; simpl; eauto.
Qed.

Lemma mapCallback_slot env b d p entity :
  fst (mapCallback env b d p entity)
  = Promised (Fulfilled (slotOf (fst (mapCallback env b d p entity)))).
Proof. destruct (mapCallback_fulfilled env b d p entity) as [v ->]. reflexivity. Qed.

(** What the callback does once the object is an image with a usable URL. *)
Lemma mapCallback_image env b d p entity url :
  isImage env entity = true ->
  constructS3UrlForAsset env b d (lodash_get (VObj entity) "Key") p = Some url ->
  url <> "" ->
  mapCallback env b d p entity
  = match tryBlock env entity url with
    | (Normal v, cs) => (Promised (Fulfilled v), cs)
    | (Throw err, cs) =>
        (Promised (Fulfilled VUndefined),
         (cs ++ [UnawaitedRejection (catchReason env err)])%list)
    end.
Proof.
  intros Himg Hurl Hne. unfold mapCallback. rewrite Himg, Hurl. simpl.
  destruct (String.eqb url "") eqn:E; [|reflexivity].
  apply String.eqb_eq in E. contradiction.
Qed.

(** A [createNode] call made inside a [try] block that ends in an exception
    is the call that raised it. *)
Lemma tryBlock_throw_createNode env entity url err node :
  fst (tryBlock env entity url) = Throw err ->
  CallCreateNode node ∈ snd (tryBlock env entity url) ->
  awaited (createNode env node) = Throw err.
Proof.
  unfold tryBlock.
  destruct (createRemoteFileNode env url) as [fileNode|e]; simpl.
  - destruct (truthy fileNode) eqn:Ht; simpl; [|discriminate].
    unfold createS3ImageAssetNode. rewrite Ht. simpl.
    destruct (getEntityNodeFields env entity fileNode) as [f|e]; simpl.
    + intros Hthrow Hin. apply elem_of_cons in Hin as [Hin|Hin]; [discriminate|].
      apply list_elem_of_singleton in Hin. injection Hin as ->. exact Hthrow.
    + intros _ Hin. apply elem_of_cons in Hin as [Hin|Hin]; [discriminate|].
      by apply elem_of_nil in Hin.
  - intros _ Hin. apply list_elem_of_singleton in Hin. discriminate.
Qed.

(** ** The run *)

(** Compaction sees promises only, so every started callback reaches
    [Promise.all], which gathers the values they are fulfilled with. *)
Lemma started_settle env options (s3Entities : list object) :
  Promise_all (lodash_compact (fst <$> (perEntity env options <$> s3Entities)))
  = Fulfilled ((fun e => slotOf (fst (perEntity env options e))) <$> s3Entities).
Proof.
  rewrite lodash_compact_promises.
  - rewrite <- Promise_all_fulfilled, <- !list_fmap_compose.
    f_equal. apply list_fmap_ext. intros _ e _. simpl.
    apply mapCallback_slot.
  - rewrite <- list_fmap_compose. apply Forall_fmap, Forall_forall.
    intros e _. simpl. unfold perEntity. by rewrite mapCallback_slot.
Qed.

(** Once the listing has arrived, the run is the callback applied to each
    listed object: one slot and one record of calls per object. *)
Lemma sourceNodes_listed env options response s3Entities :
  listObjectsResponse env options = Fulfilled response ->
  Contents response = Some s3Entities ->
  outcome (sourceNodes env options)
    = Fulfilled ((fun e => slotOf (fst (perEntity env options e))) <$> s3Entities)
  /\ perObject (sourceNodes env options)
    = (fun e => snd (perEntity env options e)) <$> s3Entities.
Proof.
  intros Hlist Hcontents. unfold sourceNodes. rewrite Hlist, Hcontents.
  destruct s3Entities as [|e0 es]; [done|].
  cbv beta iota zeta delta [outcome perObject].
  split; [apply started_settle | by rewrite <- list_fmap_compose].
Qed.

(** The same, read at one position of the listing. *)
Lemma sourceNodes_at env options response s3Entities i entity :
  listObjectsResponse env options = Fulfilled response ->
  Contents response = Some s3Entities ->
  s3Entities !! i = Some entity ->
  exists vs,
    outcome (sourceNodes env options) = Fulfilled vs
    /\ length vs = length s3Entities
    /\ vs !! i = Some (slotOf (fst (perEntity env options entity)))
    /\ perObject (sourceNodes env options) !! i
       = Some (snd (perEntity env options entity)).
Proof.
  intros Hlist Hcontents Hi.
  destruct (sourceNodes_listed env options response s3Entities Hlist Hcontents)
    as [Hout Hper].
  eexists. split; [exact Hout|]. rewrite Hper, !list_lookup_fmap, Hi.
  by rewrite length_fmap.
Qed.

(** The result has as many slots as the listing has objects, so an object
    that yields no node keeps its place, filled with [undefined]. *)
Lemma sourceNodes_one_slot_per_object env options response s3Entities :
  listObjectsResponse env options = Fulfilled response ->
  Contents response = Some s3Entities ->
  exists vs,
    outcome (sourceNodes env options) = Fulfilled vs
    /\ length vs = length s3Entities.
Proof.
  intros Hlist Hcontents.
  destruct (sourceNodes_listed env options response s3Entities Hlist Hcontents)
    as [Hout _].
  eexists. split; [exact Hout|]. by rewrite length_fmap.
Qed.

(** C1 (the code departs from it).  The claim wants skipped objects
    collapsed out of the result.  On the listing [readme.txt, photos/cat.jpg]
    the run is fulfilled with two slots: [undefined] for the text file, kept
    in its place, and the node of the image.  [lodash_compact] is applied to
    the callbacks' promises, which are all truthy, and not to the values
    they settle with. *)
Theorem sourceNodes_keeps_slot_of_skipped_object :
  exists node,
    outcome (sourceNodes (sampleEnv (Some [readmeTxt; catJpg]) fetchOk)
                         sampleOptions)
    = Fulfilled [VUndefined; VObj node].
Proof. eexists. vm_compute. reflexivity. Qed.

(** C6.  When the listing response has no [Contents], or an empty one, the
    run is fulfilled with the empty sequence and makes no call to the
    download helper nor to [createNode]. *)
Theorem empty_listing_gives_empty_result env options response :
  listObjectsResponse env options = Fulfilled response ->
  Contents response = None \/ Contents response = Some [] ->
  outcome (sourceNodes env options) = Fulfilled []
  /\ calls (sourceNodes env options) = [].
Proof.
  intros Hlist Hempty. unfold sourceNodes. rewrite Hlist.
  destruct Hempty as [-> | ->]; by split.
Qed.

Lemma empty_listing_gives_empty_result_witness :
  outcome (sourceNodes (sampleEnv None fetchOk) sampleOptions) = Fulfilled []
  /\ calls (sourceNodes (sampleEnv None fetchOk) sampleOptions) = [].
Proof.
  apply (empty_listing_gives_empty_result (sampleEnv None fetchOk) sampleOptions
           {| Contents := None |}).
  - reflexivity.
  - left. reflexivity.
Defined.

(** C7.  An object the classifier [isImage] rejects yields no node, its
    slot of the result holding [undefined], and causes no call at all, in
    particular none to the download helper; the run is fulfilled. *)
Theorem non_image_object_is_skipped env options response s3Entities i entity :
  listObjectsResponse env options = Fulfilled response ->
  Contents response = Some s3Entities ->
  s3Entities !! i = Some entity ->
  isImage env entity = false ->
  exists vs,
    outcome (sourceNodes env options) = Fulfilled vs
    /\ vs !! i = Some VUndefined
    /\ perObject (sourceNodes env options) !! i = Some [].
Proof.
  intros Hlist Hcontents Hi Himg.
  destruct (sourceNodes_at env options response s3Entities i entity
              Hlist Hcontents Hi) as (vs & Hout & _ & Hslot & Hcalls).
  exists vs. revert Hslot Hcalls.
  unfold perEntity, mapCallback. rewrite Himg. simpl. auto.
Qed.

Lemma non_image_object_is_skipped_witness :
  exists vs,
    outcome (sourceNodes (sampleEnv (Some [catJpg; readmeTxt]) fetchOk)
                         sampleOptions) = Fulfilled vs
    /\ vs !! 1 = Some VUndefined
    /\ perObject (sourceNodes (sampleEnv (Some [catJpg; readmeTxt]) fetchOk)
                              sampleOptions) !! 1 = Some [].
Proof.
  apply (non_image_object_is_skipped
           (sampleEnv (Some [catJpg; readmeTxt]) fetchOk) sampleOptions
           {| Contents := Some [catJpg; readmeTxt] |}
           [catJpg; readmeTxt] 1 readmeTxt); reflexivity.
Defined.

(** C8.  When the download helper's promise is fulfilled with a falsy file
    node, the object is passed over: its slot holds [undefined], the
    download call is the only call made for it (no node is built, no
    [createNode], no exception caught), and the run is fulfilled. *)
Theorem falsy_file_node_is_skipped env options response s3Entities i entity
    url fileNode :
  listObjectsResponse env options = Fulfilled response ->
  Contents response = Some s3Entities ->
  s3Entities !! i = Some entity ->
  isImage env entity = true ->
  constructS3UrlForAsset env (bucketName options) (domainOf options)
    (lodash_get (VObj entity) "Key") (protocolOf options) = Some url ->
  url <> "" ->
  createRemoteFileNode env url = Fulfilled fileNode ->
  truthy fileNode = false ->
  exists vs,
    outcome (sourceNodes env options) = Fulfilled vs
    /\ vs !! i = Some VUndefined
    /\ perObject (sourceNodes env options) !! i
       = Some [CallCreateRemoteFileNode url].
Proof.
  intros Hlist Hcontents Hi Himg Hurl Hne Hfetch Hfalsy.
  destruct (sourceNodes_at env options response s3Entities i entity
              Hlist Hcontents Hi) as (vs & Hout & _ & Hslot & Hcalls).
  exists vs. revert Hslot Hcalls. unfold perEntity.
  rewrite (mapCallback_image _ _ _ _ _ url Himg Hurl Hne).
  unfold tryBlock. rewrite Hfetch, Hfalsy. simpl. auto.
Qed.

Lemma falsy_file_node_is_skipped_witness :
  exists vs,
    outcome (sourceNodes (sampleEnv (Some [catJpg; dogPng])
                                    (fetchNothingAt catUrl))
                         sampleOptions) = Fulfilled vs
    /\ vs !! 0 = Some VUndefined
    /\ perObject (sourceNodes (sampleEnv (Some [catJpg; dogPng])
                                         (fetchNothingAt catUrl))
                              sampleOptions) !! 0
       = Some [CallCreateRemoteFileNode catUrl].
Proof.
  apply (falsy_file_node_is_skipped
           (sampleEnv (Some [catJpg; dogPng]) (fetchNothingAt catUrl))
           sampleOptions {| Contents := Some [catJpg; dogPng] |}
           [catJpg; dogPng] 0 catJpg catUrl VNull);
    solve [reflexivity | discriminate].
Defined.

(** C2.  When the fetch-and-build step of one object ends in an exception,
    the callback catches it: the run is still fulfilled, the object's slot
    holds [undefined] instead of a node, any [createNode] call made for it
    is the call that failed, and every other object's slot is what that
    object's own callback settles with. *)
Theorem fetch_and_build_exception_is_contained env options response s3Entities
    i entity url err :
  listObjectsResponse env options = Fulfilled response ->
  Contents response = Some s3Entities ->
  s3Entities !! i = Some entity ->
  isImage env entity = true ->
  constructS3UrlForAsset env (bucketName options) (domainOf options)
    (lodash_get (VObj entity) "Key") (protocolOf options) = Some url ->
  url <> "" ->
  fst (tryBlock env entity url) = Throw err ->
  exists vs cs,
    outcome (sourceNodes env options) = Fulfilled vs
    /\ vs !! i = Some VUndefined
    /\ perObject (sourceNodes env options) !! i = Some cs
    /\ (forall node, CallCreateNode node ∈ cs ->
          awaited (createNode env node) = Throw err)
    /\ (forall j other, s3Entities !! j = Some other ->
          vs !! j = Some (slotOf (fst (perEntity env options other)))).
Proof.
  intros Hlist Hcontents Hi Himg Hurl Hne Hthrow.
  destruct (sourceNodes_at env options response s3Entities i entity
              Hlist Hcontents Hi) as (vs & Hout & _ & Hslot & Hcalls).
  exists vs, (snd (perEntity env options entity)).
  split; [exact Hout|]. split; [|split; [exact Hcalls|split]].
  - rewrite Hslot. unfold perEntity.
    rewrite (mapCallback_image _ _ _ _ _ url Himg Hurl Hne).
    destruct (tryBlock env entity url) as [[v|e] cs]; [discriminate|done].
  - intros node. unfold perEntity.
    rewrite (mapCallback_image _ _ _ _ _ url Himg Hurl Hne).
    pose proof (tryBlock_throw_createNode env entity url err node Hthrow) as Hnode.
    destruct (tryBlock env entity url) as [[v|e] cs]; [discriminate|].
    simpl in *. intros Hin. apply Hnode.
    apply elem_of_app in Hin as [Hin|Hin]; [exact Hin|].
    apply list_elem_of_singleton in Hin. discriminate.
  - intros j other Hj.
    destruct (sourceNodes_at env options response s3Entities j other
                Hlist Hcontents Hj) as (vs' & Hout' & _ & Hslot' & _).
    rewrite Hout in Hout'. injection Hout' as <-. exact Hslot'.
Qed.

Lemma fetch_and_build_exception_is_contained_witness :
  exists vs cs,
    outcome (sourceNodes (sampleEnv (Some [dogPng; catJpg; readmeTxt])
                                    (fetchFailingAt catUrl))
                         sampleOptions) = Fulfilled vs
    /\ vs !! 1 = Some VUndefined
    /\ perObject (sourceNodes (sampleEnv (Some [dogPng; catJpg; readmeTxt])
                                         (fetchFailingAt catUrl))
                              sampleOptions) !! 1 = Some cs
    /\ (forall node, CallCreateNode node ∈ cs ->
          awaited (createNode (sampleEnv (Some [dogPng; catJpg; readmeTxt])
                                         (fetchFailingAt catUrl)) node)
          = Throw (Thrown (VStr "ECONNRESET")))
    /\ (forall j other, [dogPng; catJpg; readmeTxt] !! j = Some other ->
          vs !! j
          = Some (slotOf (fst (perEntity
                                 (sampleEnv (Some [dogPng; catJpg; readmeTxt])
                                            (fetchFailingAt catUrl))
                                 sampleOptions other)))).
Proof.
  apply (fetch_and_build_exception_is_contained
           (sampleEnv (Some [dogPng; catJpg; readmeTxt]) (fetchFailingAt catUrl))
           sampleOptions {| Contents := Some [dogPng; catJpg; readmeTxt] |}
           [dogPng; catJpg; readmeTxt] 1 catJpg catUrl
           (Thrown (VStr "ECONNRESET")));
    solve [reflexivity | discriminate].
Defined.

(** ** The node *)

(** Reads a property off an object literal: steps over the properties set
    later under other names, down to the one that sets it. *)
Ltac read_literal :=
  repeat (rewrite lookup_insert_ne by done); rewrite ?lookup_insert_eq.

(** C3.  For an entity whose [ETag] is a string, the [objectHash] that
    [getEntityNodeFields] computes holds no double quote and is the [ETag]
    with its double quotes, and nothing else, left out; the node literal
    carries it as [ETag] and as [internal.contentDigest]. *)
Theorem objectHash_is_ETag_without_quotes env entity fileNode url ETag :
  entity !! "ETag" = Some (VStr ETag) ->
  exists f,
    getEntityNodeFields env entity fileNode = Normal f
    /\ countQuotes (objectHash f) = 0
    /\ OnlyQuotesDropped ETag (objectHash f)
    /\ nodeLiteral env entity url f !! "ETag" = Some (VStr (objectHash f))
    /\ lodash_get (lodash_get (VObj (nodeLiteral env entity url f)) "internal")
                  "contentDigest" = VStr (objectHash f).
Proof.
  intros HETag. unfold getEntityNodeFields. rewrite HETag.
  eexists. split; [reflexivity|]. simpl.
  split; [apply removeQuotes_countQuotes|].
  split; [apply removeQuotes_drops_only_quotes|].
  unfold nodeLiteral, internalBlock. simpl. split.
  - by read_literal.
  - by do 2 read_literal.
Qed.

Lemma objectHash_is_ETag_without_quotes_witness :
  exists f,
    getEntityNodeFields (sampleEnv None fetchOk) catJpg VNull = Normal f
    /\ countQuotes (objectHash f) = 0
    /\ OnlyQuotesDropped (quoted "abc123") (objectHash f)
    /\ nodeLiteral (sampleEnv None fetchOk) catJpg catUrl f !! "ETag"
       = Some (VStr (objectHash f))
    /\ lodash_get (lodash_get (VObj (nodeLiteral (sampleEnv None fetchOk)
                                                 catJpg catUrl f)) "internal")
                  "contentDigest" = VStr (objectHash f).
Proof.
  apply (objectHash_is_ETag_without_quotes (sampleEnv None fetchOk) catJpg
           VNull catUrl (quoted "abc123")).
  reflexivity.
Defined.


Lemma createS3ImageAssetNode_builds env entity fileNode url ETag :
  truthy fileNode = true ->
  entity !! "ETag" = Some (VStr ETag) ->
  exists f,
    getEntityNodeFields env entity fileNode = Normal f
    /\ objectHash f = removeQuotes ETag
    /\ createS3ImageAssetNode env entity fileNode url
       = (createNode env (nodeLiteral env entity url f),
          [CallCreateNode (nodeLiteral env entity url f)]).
Proof.
  intros Hfile HETag. unfold createS3ImageAssetNode, getEntityNodeFields.
  rewrite Hfile, HETag. simpl. eexists. by repeat split.
Qed.

(** C5.  The node handed to [createNode] has the entity's properties,
    except those the literal sets after the spread; as [Key] the entity's
    own [Key], or the empty string when the entity has none; [absolutePath]
    and [parent] read off the file node, [parent] being its [id]; as [ETag]
    the entity's ETag with its double quotes, and nothing else, left out,
    so that it holds none; as [id] the host's [createNodeId] of that hash;
    and an [internal] object of exactly four properties: [content] the URL,
    [contentDigest] the same hash, [mediaType] the MIME type that
    [mime.lookup] resolves for the key ([false] when it resolves none), and
    [type] "S3ImageAsset". *)
Theorem created_node_shape env entity fileNode url ETag :
  truthy fileNode = true ->
  entity !! "ETag" = Some (VStr ETag) ->
  exists (node internal : object) (hash : string) (key : value),
    createS3ImageAssetNode env entity fileNode url
      = (createNode env node, [CallCreateNode node])
    /\ (forall k, k ∉ setByLiteral -> node !! k = entity !! k)
    /\ node !! "Key" = Some key
    /\ key = keyOrDefault entity
    /\ (forall v, entity !! "Key" = Some v -> v <> VUndefined -> key = v)
    /\ (entity !! "Key" = None \/ entity !! "Key" = Some VUndefined ->
        key = VStr "")
    /\ node !! "absolutePath" = Some (lodash_get fileNode "absolutePath")
    /\ node !! "parent" = Some (lodash_get fileNode "id")
    /\ (forall o : object, fileNode = VObj o ->
        node !! "absolutePath" = Some (default VUndefined (o !! "absolutePath"))
        /\ node !! "parent" = Some (default VUndefined (o !! "id")))
    /\ node !! "ETag" = Some (VStr hash)
    /\ hash = removeQuotes ETag
    /\ countQuotes hash = 0
    /\ OnlyQuotesDropped ETag hash
    /\ node !! "id" = Some (VStr (createNodeId env hash))
    /\ node !! "internal" = Some (VObj internal)
    /\ dom internal = {[ "content"; "contentDigest"; "mediaType"; "type" ]}
    /\ internal !! "content" = Some (VStr url)
    /\ internal !! "contentDigest" = Some (VStr hash)
    /\ internal !! "mediaType" = Some (mimeLookup env key)
    /\ (forall path, key = VStr path ->
        internal !! "mediaType"
        = Some (match mime_lookup env path with
                | Some type => VStr type
                | None => VBool false
                end))
    /\ internal !! "type" = Some (VStr "S3ImageAsset").
Proof.
  intros Hfile HETag.
  destruct (createS3ImageAssetNode_builds env entity fileNode url ETag
              Hfile HETag) as (f & Hf & Hhash & Hcall).
  exists (nodeLiteral env entity url f), (internalBlock url f),
         (removeQuotes ETag), (keyOrDefault entity).
  split; [exact Hcall|].
  unfold getEntityNodeFields in Hf. rewrite HETag in Hf.
  injection Hf as <-. unfold nodeLiteral, internalBlock. simpl.
  split.
  { intros k Hk. unfold setByLiteral in Hk.
    rewrite !lookup_insert_ne; [done|intros <-; apply Hk; set_solver..]. }
  split; [by read_literal|]. split; [done|].
  split.
  { intros v Hv Hdef. unfold keyOrDefault. rewrite Hv. by destruct v. }
  split.
  { intros [Hnone | Hundef]; unfold keyOrDefault.
    - by rewrite Hnone.
    - by rewrite Hundef. }
  split; [by read_literal|]. split; [by read_literal|].
  split.
  { intros o ->. simpl. split; read_literal.
    - by destruct (o !! "absolutePath").
    - by destruct (o !! "id"). }
  split; [by read_literal|]. split; [done|].
  split; [apply removeQuotes_countQuotes|].
  split; [apply removeQuotes_drops_only_quotes|].
  split; [by read_literal|]. split; [by read_literal|].
  split; [reflexivity|].
  split; [by read_literal|]. split; [by read_literal|].
  split; [by read_literal|].
  split; [|by read_literal].
  intros path ->. by read_literal.
Qed.

Lemma created_node_shape_witness :
  exists node internal : object,
    createS3ImageAssetNode (sampleEnv None fetchOk) catJpg catFile catUrl
      = (createNode (sampleEnv None fetchOk) node, [CallCreateNode node])
    /\ node !! "Size" = Some (VNum 1024)
    /\ node !! "Key" = Some (VStr "photos/cat.jpg")
    /\ node !! "absolutePath"
       = Some (VStr "/cache/https://s3.amazonaws.com/my-bucket/photos/cat.jpg")
    /\ node !! "parent"
       = Some (VStr "file-https://s3.amazonaws.com/my-bucket/photos/cat.jpg")
    /\ node !! "ETag" = Some (VStr "abc123")
    /\ node !! "id" = Some (VStr "id-abc123")
    /\ node !! "internal" = Some (VObj internal)
    /\ dom internal = {[ "content"; "contentDigest"; "mediaType"; "type" ]}
    /\ internal !! "content"
       = Some (VStr "https://s3.amazonaws.com/my-bucket/photos/cat.jpg")
    /\ internal !! "contentDigest" = Some (VStr "abc123")
    /\ internal !! "mediaType" = Some (VStr "image/jpeg")
    /\ internal !! "type" = Some (VStr "S3ImageAsset").
Proof.
  destruct (created_node_shape (sampleEnv None fetchOk) catJpg catFile catUrl
              (quoted "abc123") eq_refl eq_refl)
    as (node & internal & hash & key & Hcall & Hrest & HKey & _ & Hown & _
        & _ & _ & Hfile & HETag & Hhash & _ & _ & Hid & Hint & Hdom
        & Hcontent & Hdigest & _ & Hmime & Htype).
  assert (Hk : key = VStr "photos/cat.jpg").
  { apply Hown; [reflexivity | discriminate]. }
  subst hash key.
  destruct (Hfile _ eq_refl) as [Hpath Hparent].
  exists node, internal.
  split; [exact Hcall|].
  split.
  { rewrite Hrest; [reflexivity|].
    unfold setByLiteral. intros Hin.
    repeat (apply elem_of_cons in Hin as [Hin|Hin]; [discriminate|]).
    by apply elem_of_nil in Hin. }
  split; [exact HKey|]. split; [exact Hpath|]. split; [exact Hparent|].
  split; [exact HETag|]. split; [exact Hid|]. split; [exact Hint|].
  split; [exact Hdom|]. split; [exact Hcontent|]. split; [exact Hdigest|].
  split; [exact (Hmime _ eq_refl)|]. exact Htype.
Defined.

(** The worked example of the specification: the node built for
    [photos/cat.jpg]. *)
Example node_of_cat :
  let node := match snd (createS3ImageAssetNode (sampleEnv None fetchOk)
                           catJpg catFile catUrl) with
              | [CallCreateNode n] => VObj n
              | _ => VUndefined
              end in
  lodash_get node "ETag" = VStr "abc123"
  /\ lodash_get node "Key" = VStr "photos/cat.jpg"
  /\ lodash_get node "id" = VStr "id-abc123"
  /\ lodash_get node "Size" = VNum 1024
  /\ lodash_get (lodash_get node "internal") "mediaType" = VStr "image/jpeg"
  /\ lodash_get (lodash_get node "internal") "type" = VStr "S3ImageAsset".
Proof. vm_compute. repeat split. Qed.

(** C4.  The [id] of a node is the host's [createNodeId] applied to the
    unquoted ETag, whatever the file node, the URL and the other properties
    of the object are.  Hence equal ETags give equal ids; and when
    [createNodeId] is injective, two nodes have the same id exactly when
    their unquoted ETags agree, so that two different ETags in S3's quoted
    form give different ids. *)
Theorem node_id_is_createNodeId_of_unquoted_ETag env entity1 entity2
    fileNode1 fileNode2 url1 url2 ETag1 ETag2 :
  Inj (=) (=) (createNodeId env) ->
  truthy fileNode1 = true ->
  truthy fileNode2 = true ->
  entity1 !! "ETag" = Some (VStr ETag1) ->
  entity2 !! "ETag" = Some (VStr ETag2) ->
  exists node1 node2 : object,
    snd (createS3ImageAssetNode env entity1 fileNode1 url1)
      = [CallCreateNode node1]
    /\ snd (createS3ImageAssetNode env entity2 fileNode2 url2)
      = [CallCreateNode node2]
    /\ node1 !! "id" = Some (VStr (createNodeId env (removeQuotes ETag1)))
    /\ node2 !! "id" = Some (VStr (createNodeId env (removeQuotes ETag2)))
    /\ (ETag1 = ETag2 -> node1 !! "id" = node2 !! "id")
    /\ (node1 !! "id" = node2 !! "id" <-> removeQuotes ETag1 = removeQuotes ETag2)
    /\ (forall hash1 hash2,
          countQuotes hash1 = 0 -> countQuotes hash2 = 0 ->
          ETag1 = quoted hash1 -> ETag2 = quoted hash2 ->
          ETag1 <> ETag2 -> node1 !! "id" <> node2 !! "id").
Proof.
  intros Hinj Hfile1 Hfile2 HETag1 HETag2.
  destruct (createS3ImageAssetNode_builds env entity1 fileNode1 url1 ETag1
              Hfile1 HETag1) as (f1 & _ & Hhash1 & Hcall1).
  destruct (createS3ImageAssetNode_builds env entity2 fileNode2 url2 ETag2
              Hfile2 HETag2) as (f2 & _ & Hhash2 & Hcall2).
  exists (nodeLiteral env entity1 url1 f1), (nodeLiteral env entity2 url2 f2).
  rewrite Hcall1, Hcall2.
  assert (Hid1 : nodeLiteral env entity1 url1 f1 !! "id"
                 = Some (VStr (createNodeId env (removeQuotes ETag1)))).
  { unfold nodeLiteral. rewrite <- Hhash1. by read_literal. }
  assert (Hid2 : nodeLiteral env entity2 url2 f2 !! "id"
                 = Some (VStr (createNodeId env (removeQuotes ETag2)))).
  { unfold nodeLiteral. rewrite <- Hhash2. by read_literal. }
  rewrite Hid1, Hid2.
  assert (Hiff : Some (VStr (createNodeId env (removeQuotes ETag1)))
                 = Some (VStr (createNodeId env (removeQuotes ETag2)))
                 <-> removeQuotes ETag1 = removeQuotes ETag2).
  { split; [|by intros ->]. intros Heq. injection Heq as Heq. by apply Hinj. }
  repeat split; try tauto.
  - by intros ->.
  - intros hash1 hash2 Hq1 Hq2 -> -> Hne Heq. apply Hne.
    apply Hiff in Heq. rewrite !removeQuotes_quoted in Heq by assumption.
    by subst.
Qed.

Lemma sample_createNodeId_inj :
  Inj (=) (=) (createNodeId (sampleEnv None fetchOk)).
Proof. intros a b H. simpl in H. by injection H. Qed.

Lemma node_id_is_createNodeId_of_unquoted_ETag_witness :
  exists node1 node2 : object,
    snd (createS3ImageAssetNode (sampleEnv None fetchOk) catJpg catFile catUrl)
      = [CallCreateNode node1]
    /\ snd (createS3ImageAssetNode (sampleEnv None fetchOk) catCopy bareFile
              "https://cdn.example/copies/cat.jpeg")
      = [CallCreateNode node2]
    /\ node1 !! "id" = Some (VStr "id-abc123")
    /\ node1 !! "id" = node2 !! "id".
Proof.
  destruct (node_id_is_createNodeId_of_unquoted_ETag
              (sampleEnv None fetchOk) catJpg catCopy catFile bareFile
              catUrl "https://cdn.example/copies/cat.jpeg"
              (quoted "abc123") (quoted "abc123")
              sample_createNodeId_inj eq_refl eq_refl eq_refl eq_refl)
    as (node1 & node2 & H1 & H2 & Hid1 & _ & Hsame & _).
  exists node1, node2. repeat split; [exact H1 | exact H2 | exact Hid1 |].
  by apply Hsame.
Defined.

(** C9.  Called with a falsy file node, [createS3ImageAssetNode] returns a
    rejected promise and calls nothing; whoever awaits that promise gets
    the rejection as an exception, not an [undefined] result. *)
Theorem missing_file_node_is_rejected env entity fileNode url :
  truthy fileNode = false ->
  createS3ImageAssetNode env entity fileNode url
    = (Normal (Promised (Rejected (Thrown (VStr fileNodeMissing)))), [])
  /\ awaited (fst (createS3ImageAssetNode env entity fileNode url))
     = Throw (Thrown (VStr fileNodeMissing)).
Proof.
  intros Hfile. unfold createS3ImageAssetNode. rewrite Hfile. by split.
Qed.

Lemma missing_file_node_is_rejected_witness :
  createS3ImageAssetNode (sampleEnv None fetchOk) catJpg VUndefined catUrl
    = (Normal (Promised (Rejected (Thrown (VStr fileNodeMissing)))), [])
  /\ awaited (fst (createS3ImageAssetNode (sampleEnv None fetchOk) catJpg
                     VUndefined catUrl))
     = Throw (Thrown (VStr fileNodeMissing)).
Proof.
  apply (missing_file_node_is_rejected (sampleEnv None fetchOk) catJpg
           VUndefined catUrl).
  reflexivity.
Defined.

(** C10.  When the entity's [ETag] is undefined, [getEntityNodeFields]
    throws a [TypeError], and so does [createS3ImageAssetNode] given a
    truthy file node: synchronously, with no promise returned and no call
    to [createNode]. *)
Theorem undefined_ETag_throws env entity fileNode url :
  lodash_get (VObj entity) "ETag" = VUndefined ->
  truthy fileNode = true ->
  getEntityNodeFields env entity fileNode = Throw TypeError
  /\ createS3ImageAssetNode env entity fileNode url = (Throw TypeError, []).
Proof.
  intros HETag Hfile.
  assert (Hfields : getEntityNodeFields env entity fileNode = Throw TypeError).
  { unfold getEntityNodeFields. simpl in HETag.
    destruct (entity !! "ETag") as [v|]; [|reflexivity].
    by subst v. }
  split; [exact Hfields|].
  unfold createS3ImageAssetNode. by rewrite Hfile, Hfields.
Qed.

Lemma undefined_ETag_throws_witness :
  getEntityNodeFields (sampleEnv None fetchOk) noETagPng catFile
    = Throw TypeError
  /\ createS3ImageAssetNode (sampleEnv None fetchOk) noETagPng catFile
       "https://s3.amazonaws.com/my-bucket/logo.png"
     = (Throw TypeError, []).
Proof.
  apply (undefined_ETag_throws (sampleEnv None fetchOk) noETagPng catFile
           "https://s3.amazonaws.com/my-bucket/logo.png"); reflexivity.
Defined.

(** Inside a run the same exception is caught by the callback: the object
    without ETag is downloaded, no node is created for it, its slot holds
    [undefined], and a promise rejected with the message about the error is
    left behind. *)
Example run_with_object_without_ETag :
  let run := sourceNodes (sampleEnv (Some [noETagPng]) fetchOk) sampleOptions in
  outcome run = Fulfilled [VUndefined]
  /\ perObject run
     = [[CallCreateRemoteFileNode "https://s3.amazonaws.com/my-bucket/logo.png";
         UnawaitedRejection
           (Thrown (VStr ("Error creating S3ImageAsset node: " +:+
                          "TypeError: Cannot read property 'replace' of undefined")))]].
Proof. vm_compute. by split. Qed.

(** ** The helpers of [./utils] as the specification describes them *)

(** The classifier says no exactly when the key resolves to no MIME type
    or to one whose top-level type is not [image]. *)
Lemma specIsImage_false mime (entity : object) key :
  entity !! "Key" = Some (VStr key) ->
  specIsImage mime entity = false
  <-> mime key = None
      \/ exists m, mime key = Some m /\ topLevelType m <> "image".
Proof.
  intros Hkey. unfold specIsImage. simpl. rewrite Hkey.
  destruct (mime key) as [m|].
  - rewrite String.eqb_neq. split.
    + intros Hne. right. eauto.
    + intros [Hnone | (m' & Hm & Hne)]; [discriminate|]. by injection Hm as ->.
  - split; [by left | done].
Qed.

(** The worked examples of the specification. *)
Example url_of_cat :
  specConstructS3UrlForAsset "my-bucket" "s3.amazonaws.com"
    (VStr "photos/cat.jpg") "https"
  = Some "https://s3.amazonaws.com/my-bucket/photos/cat.jpg".
Proof. reflexivity. Qed.

Example url_without_key :
  specConstructS3UrlForAsset "my-bucket" "s3.amazonaws.com" VUndefined "https"
  = None.
Proof. reflexivity. Qed.

Example readme_is_no_image : specIsImage sampleMime readmeTxt = false.
Proof. reflexivity. Qed.

Example readme_alone :
  let run := sourceNodes (sampleEnv (Some [readmeTxt]) fetchOk) sampleOptions in
  outcome run = Fulfilled [VUndefined] /\ calls run = [].
Proof. vm_compute. by split. Qed.

(** * Further properties of the module *)

(** ** The callback, case by case *)

Lemma mapCallback_usable env b d p entity :
  mapCallback env b d p entity
  = match usableUrl env b d p entity with
    | None => (Promised (Fulfilled VUndefined), [])
    | Some url =>
        match tryBlock env entity url with
        | (Normal v, cs) => (Promised (Fulfilled v), cs)
        | (Throw err, cs) =>
            (Promised (Fulfilled VUndefined),
             (cs ++ [UnawaitedRejection (catchReason env err)])%list)
        end
    end.
Proof.
  unfold mapCallback, usableUrl.
  destruct (isImage env entity); simpl; [|reflexivity].
  destruct (constructS3UrlForAsset _ _ _ _ _) as [url|]; [|reflexivity].
  by destruct (String.eqb url "").
Qed.

Lemma usableUrl_Some env b d p entity url :
  usableUrl env b d p entity = Some url
  <-> isImage env entity = true
      /\ constructS3UrlForAsset env b d (lodash_get (VObj entity) "Key") p
         = Some url
      /\ url <> "".
Proof.
  unfold usableUrl. destruct (isImage env entity).
  - destruct (constructS3UrlForAsset _ _ _ _ _) as [u|].
    + destruct (String.eqb u "") eqn:E.
      * apply String.eqb_eq in E. subst u. split; [done|].
        intros (_ & Hu & Hne). by injection Hu as <-.
      * apply String.eqb_neq in E. split.
        -- intros Hu. injection Hu as <-. done.
        -- by intros (_ & -> & _).
    + split; [done | by intros (_ & ? & _)].
  - split; [done | by intros (? & _)].
Qed.

Lemma tryBlock_cases env entity url :
  tryBlock env entity url
  = match createRemoteFileNode env url with
    | Rejected err => (Throw err, [CallCreateRemoteFileNode url])
    | Fulfilled fileNode =>
        if truthy fileNode then
          match getEntityNodeFields env entity fileNode with
          | Throw err => (Throw err, [CallCreateRemoteFileNode url])
          | Normal f =>
              (awaited (createNode env (nodeLiteral env entity url f)),
               [CallCreateRemoteFileNode url;
                CallCreateNode (nodeLiteral env entity url f)])
          end
        else (Normal VUndefined, [CallCreateRemoteFileNode url])
    end.
Proof.
  unfold tryBlock, createS3ImageAssetNode.
  destruct (createRemoteFileNode env url) as [fileNode|err]; [|reflexivity].
  destruct (truthy fileNode); simpl; [|reflexivity].
  by destruct (getEntityNodeFields env entity fileNode).
Qed.

Lemma createdNodes_elem (cs : list event) (node : object) :
  CallCreateNode node ∈ cs <-> node ∈ createdNodes cs.
Proof.
  unfold createdNodes. rewrite list_elem_of_omap. split.
  - intros Hin. by exists (CallCreateNode node).
  - intros (ev & Hin & Hev). destruct ev; try discriminate.
    by injection Hev as ->.
Qed.

Lemma createNode_is_second url (built node : object) (rest : list event) :
  createdNodes rest = [] ->
  CallCreateNode node
    ∈ CallCreateRemoteFileNode url :: CallCreateNode built :: rest ->
  node = built.
Proof.
  intros Hrest Hin.
  apply elem_of_cons in Hin as [Hin|Hin]; [discriminate|].
  apply elem_of_cons in Hin as [Hin|Hin]; [by injection Hin|].
  apply createdNodes_elem in Hin. rewrite Hrest in Hin.
  by apply elem_of_nil in Hin.
Qed.

(** A [createNode] call in an object's record comes second, right after a
    download that was fulfilled with a truthy file node, and carries the
    literal built from the object and that file node. *)
Lemma mapCallback_createNode env b d p entity node :
  CallCreateNode node ∈ snd (mapCallback env b d p entity) ->
  exists url fileNode f rest,
    usableUrl env b d p entity = Some url
    /\ createRemoteFileNode env url = Fulfilled fileNode
    /\ truthy fileNode = true
    /\ getEntityNodeFields env entity fileNode = Normal f
    /\ node = nodeLiteral env entity url f
    /\ snd (mapCallback env b d p entity)
       = CallCreateRemoteFileNode url :: CallCreateNode node :: rest
    /\ createdNodes rest = [].
Proof.
  rewrite mapCallback_usable.
  destruct (usableUrl env b d p entity) as [url|] eqn:Hurl; simpl;
    [|by intros ?%elem_of_nil].
  rewrite tryBlock_cases.
  destruct (createRemoteFileNode env url) as [fileNode|err] eqn:Hfetch.
  - destruct (truthy fileNode) eqn:Hfile.
    + destruct (getEntityNodeFields env entity fileNode) as [f|err] eqn:Hf.
      * destruct (awaited _) as [v|err]; simpl; intros Hin.
        -- apply (createNode_is_second url _ node []) in Hin as ->; [|done].
           by exists url, fileNode, f, [].
        -- apply (createNode_is_second url _ node
                    [UnawaitedRejection (catchReason env err)])
             in Hin as ->; [|done].
           by exists url, fileNode, f, [UnawaitedRejection (catchReason env err)].
      * simpl. intros Hin%createdNodes_elem. by apply elem_of_nil in Hin.
    + simpl. intros Hin%createdNodes_elem. by apply elem_of_nil in Hin.
  - simpl. intros Hin%createdNodes_elem. by apply elem_of_nil in Hin.
Qed.

(** ** The run as a whole *)

(** X1.  A run fails exactly when its listing call fails.  The promise
    returned by [sourceNodes] is rejected with an error if and only if the
    listing call is rejected with that error, whatever the downloads and
    [createNode] do afterwards; and a run that is rejected has made no
    download and no [createNode] call. *)
Theorem run_fails_exactly_when_listing_fails env options err :
  (outcome (sourceNodes env options) = Rejected err
   <-> listObjectsResponse env options = Rejected err)
  /\ (outcome (sourceNodes env options) = Rejected err ->
      calls (sourceNodes env options) = []).
Proof.
  assert (Hback : listObjectsResponse env options = Rejected err ->
                  outcome (sourceNodes env options) = Rejected err
                  /\ calls (sourceNodes env options) = []).
  { intros Hlist. unfold sourceNodes. by rewrite Hlist. }
  assert (Hforth : outcome (sourceNodes env options) = Rejected err ->
                   listObjectsResponse env options = Rejected err).
  { destruct (listObjectsResponse env options) as [response|e] eqn:Hlist.
    - destruct (Contents response) as [s3Entities|] eqn:Hcontents.
      + destruct (sourceNodes_listed env options response s3Entities
                    Hlist Hcontents) as [Hout _].
        rewrite Hout. discriminate.
      + unfold sourceNodes. rewrite Hlist, Hcontents. discriminate.
    - unfold sourceNodes. rewrite Hlist. simpl. by intros [= ->]. }
  split; [split; [exact Hforth | apply Hback]|].
  intros Hout. by apply Hback, Hforth.
Qed.

Lemma run_fails_exactly_when_listing_fails_witness :
  outcome (sourceNodes offlineEnv sampleOptions)
    = Rejected (Thrown (VStr "AccessDenied"))
  /\ calls (sourceNodes offlineEnv sampleOptions) = []
  /\ outcome (sourceNodes
                (sampleEnv (Some [dogPng; catJpg]) (fetchFailingAt catUrl))
                sampleOptions)
     <> Rejected (Thrown (VStr "ECONNRESET")).
Proof.
  destruct (run_fails_exactly_when_listing_fails offlineEnv sampleOptions
              (Thrown (VStr "AccessDenied"))) as [[_ Hfails] Hquiet].
  destruct (run_fails_exactly_when_listing_fails
              (sampleEnv (Some [dogPng; catJpg]) (fetchFailingAt catUrl))
              sampleOptions (Thrown (VStr "ECONNRESET"))) as [[Honly _] _].
  split; [by apply Hfails|]. split; [by apply Hquiet, Hfails|].
  intros Hout. apply Honly in Hout. discriminate.
Defined.

(** X2.  An image for which [constructS3UrlForAsset] gives no URL, or the
    empty string, is passed over before the [try] block: its slot holds
    [undefined] and no call is made for it. *)
Theorem image_without_url_is_skipped env options response s3Entities i entity :
  listObjectsResponse env options = Fulfilled response ->
  Contents response = Some s3Entities ->
  s3Entities !! i = Some entity ->
  isImage env entity = true ->
  constructS3UrlForAsset env (bucketName options) (domainOf options)
    (lodash_get (VObj entity) "Key") (protocolOf options) = None
  \/ constructS3UrlForAsset env (bucketName options) (domainOf options)
       (lodash_get (VObj entity) "Key") (protocolOf options) = Some "" ->
  exists vs,
    outcome (sourceNodes env options) = Fulfilled vs
    /\ vs !! i = Some VUndefined
    /\ perObject (sourceNodes env options) !! i = Some [].
Proof.
  intros Hlist Hcontents Hi Himg Hurl.
  destruct (sourceNodes_at env options response s3Entities i entity
              Hlist Hcontents Hi) as (vs & Hout & _ & Hslot & Hcalls).
  assert (Hnone : usableUrl env (bucketName options) (domainOf options)
                    (protocolOf options) entity = None).
  { unfold usableUrl. rewrite Himg. by destruct Hurl as [-> | ->]. }
  exists vs. revert Hslot Hcalls. unfold perEntity.
  rewrite mapCallback_usable, Hnone. auto.
Qed.

Lemma image_without_url_is_skipped_witness :
  exists vs,
    outcome (sourceNodes (lenientEnv (Some [catJpg; noKey])) sampleOptions)
      = Fulfilled vs
    /\ vs !! 1 = Some VUndefined
    /\ perObject (sourceNodes (lenientEnv (Some [catJpg; noKey]))
                              sampleOptions) !! 1 = Some [].
Proof.
  apply (image_without_url_is_skipped (lenientEnv (Some [catJpg; noKey]))
           sampleOptions {| Contents := Some [catJpg; noKey] |}
           [catJpg; noKey] 1 noKey); try reflexivity.
  left. reflexivity.
Defined.

(** X3.  The success path.  For an image with a usable URL whose download
    is fulfilled with a truthy file node and whose fields can be read, the
    node literal is handed to [createNode] once, right after the download,
    and the value [createNode]'s answer settles with is the object's slot
    of the result, unchanged. *)
Theorem downloaded_image_yields_createNode_result env options response
    s3Entities i entity url fileNode f v :
  listObjectsResponse env options = Fulfilled response ->
  Contents response = Some s3Entities ->
  s3Entities !! i = Some entity ->
  isImage env entity = true ->
  constructS3UrlForAsset env (bucketName options) (domainOf options)
    (lodash_get (VObj entity) "Key") (protocolOf options) = Some url ->
  url <> "" ->
  createRemoteFileNode env url = Fulfilled fileNode ->
  truthy fileNode = true ->
  getEntityNodeFields env entity fileNode = Normal f ->
  awaited (createNode env (nodeLiteral env entity url f)) = Normal v ->
  exists vs,
    outcome (sourceNodes env options) = Fulfilled vs
    /\ vs !! i = Some v
    /\ perObject (sourceNodes env options) !! i
       = Some [CallCreateRemoteFileNode url;
               CallCreateNode (nodeLiteral env entity url f)].
Proof.
  intros Hlist Hcontents Hi Himg Hurl Hne Hfetch Hfile Hf Hcreate.
  destruct (sourceNodes_at env options response s3Entities i entity
              Hlist Hcontents Hi) as (vs & Hout & _ & Hslot & Hcalls).
  exists vs. revert Hslot Hcalls. unfold perEntity.
  rewrite (mapCallback_image _ _ _ _ _ url Himg Hurl Hne), tryBlock_cases.
  rewrite Hfetch, Hfile, Hf, Hcreate. auto.
Qed.

Lemma downloaded_image_yields_createNode_result_witness :
  exists vs,
    outcome (sourceNodes (sampleEnv (Some [readmeTxt; catJpg]) fetchOk)
                         sampleOptions) = Fulfilled vs
    /\ vs !! 1
       = Some (VObj (nodeLiteral (sampleEnv (Some [readmeTxt; catJpg]) fetchOk)
                       catJpg catUrl catFields))
    /\ perObject (sourceNodes (sampleEnv (Some [readmeTxt; catJpg]) fetchOk)
                              sampleOptions) !! 1
       = Some [CallCreateRemoteFileNode catUrl;
               CallCreateNode
                 (nodeLiteral (sampleEnv (Some [readmeTxt; catJpg]) fetchOk)
                    catJpg catUrl catFields)].
Proof.
  apply (downloaded_image_yields_createNode_result
           (sampleEnv (Some [readmeTxt; catJpg]) fetchOk) sampleOptions
           {| Contents := Some [readmeTxt; catJpg] |} [readmeTxt; catJpg]
           1 catJpg catUrl catFile catFields);
    solve [reflexivity | discriminate].
Defined.

(** Each slot is [undefined] or what a [createNode] call recorded for the
    same object settled with. *)
Lemma mapCallback_slot_origin env b d p entity :
  slotOf (fst (mapCallback env b d p entity)) = VUndefined
  \/ exists node,
       CallCreateNode node ∈ snd (mapCallback env b d p entity)
       /\ awaited (createNode env node)
          = Normal (slotOf (fst (mapCallback env b d p entity))).
Proof.
  rewrite mapCallback_usable.
  destruct (usableUrl env b d p entity) as [url|]; [|by left].
  rewrite tryBlock_cases.
  destruct (createRemoteFileNode env url) as [fileNode|err]; [|by left].
  destruct (truthy fileNode); [|by left].
  destruct (getEntityNodeFields env entity fileNode) as [f|err]; [|by left].
  destruct (awaited (createNode env (nodeLiteral env entity url f)))
    as [v|err] eqn:Hcreate; [|by left].
  right. exists (nodeLiteral env entity url f). simpl. split; [|done].
  apply elem_of_cons. right. apply elem_of_cons. by left.
Qed.

(** X4.  Once the listing has arrived the run cannot fail: it is fulfilled
    with exactly one slot per listed object, and a slot holds either
    [undefined] or the value that a [createNode] call made for that very
    object settled with. *)
Theorem listed_run_is_fulfilled env options response s3Entities :
  listObjectsResponse env options = Fulfilled response ->
  Contents response = Some s3Entities ->
  exists vs,
    outcome (sourceNodes env options) = Fulfilled vs
    /\ length vs = length s3Entities
    /\ forall i v, vs !! i = Some v ->
         v = VUndefined
         \/ exists cs node,
              perObject (sourceNodes env options) !! i = Some cs
              /\ CallCreateNode node ∈ cs
              /\ awaited (createNode env node) = Normal v.
Proof.
  intros Hlist Hcontents.
  destruct (sourceNodes_listed env options response s3Entities Hlist Hcontents)
    as [Hout Hper].
  eexists. split; [exact Hout|]. split; [by rewrite length_fmap|].
  intros i v Hv. rewrite list_lookup_fmap in Hv.
  destruct (s3Entities !! i) as [entity|] eqn:Hi; [|discriminate].
  injection Hv as <-.
  destruct (mapCallback_slot_origin env (bucketName options) (domainOf options)
              (protocolOf options) entity) as [Hundef | (node & Hin & Hcreate)].
  - by left.
  - right. exists (snd (perEntity env options entity)), node.
    rewrite Hper, list_lookup_fmap, Hi. by repeat split.
Qed.

Lemma listed_run_is_fulfilled_witness :
  exists vs,
    outcome (sourceNodes (sampleEnv (Some [dogPng; catJpg; readmeTxt])
                                    (fetchFailingAt catUrl))
                         sampleOptions) = Fulfilled vs
    /\ length vs = 3.
Proof.
  destruct (listed_run_is_fulfilled
              (sampleEnv (Some [dogPng; catJpg; readmeTxt])
                         (fetchFailingAt catUrl))
              sampleOptions {| Contents := Some [dogPng; catJpg; readmeTxt] |}
              [dogPng; catJpg; readmeTxt] eq_refl eq_refl)
    as (vs & Hout & Hlen & _).
  exists vs. by split.
Defined.

(** ** What a run downloads and creates *)

Lemma downloads_of_object env b d p entity :
  downloads (snd (mapCallback env b d p entity))
  = option_list (usableUrl env b d p entity).
Proof.
  rewrite mapCallback_usable.
  destruct (usableUrl env b d p entity) as [url|]; [|reflexivity].
  rewrite tryBlock_cases.
  destruct (createRemoteFileNode env url) as [fileNode|err]; [|reflexivity].
  destruct (truthy fileNode); [|reflexivity].
  destruct (getEntityNodeFields env entity fileNode) as [f|err]; [|reflexivity].
  by destruct (awaited _).
Qed.

Lemma createdNodes_of_object env b d p entity :
  length (createdNodes (snd (mapCallback env b d p entity)))
  <= length (downloads (snd (mapCallback env b d p entity)))
  /\ length (downloads (snd (mapCallback env b d p entity))) <= 1.
Proof.
  rewrite downloads_of_object, mapCallback_usable.
  destruct (usableUrl env b d p entity) as [url|]; [|simpl; lia].
  rewrite tryBlock_cases.
  destruct (createRemoteFileNode env url) as [fileNode|err]; [|simpl; lia].
  destruct (truthy fileNode); [|simpl; lia].
  destruct (getEntityNodeFields env entity fileNode) as [f|err]; [|simpl; lia].
  destruct (awaited _); simpl; lia.
Qed.

(** X5.  The downloads of a run are, in listing order, the URLs of the
    listed images that have a usable URL, one call each: nothing else is
    downloaded, and an object is never downloaded twice. *)
Theorem downloads_are_the_usable_urls env options response s3Entities :
  listObjectsResponse env options = Fulfilled response ->
  Contents response = Some s3Entities ->
  downloads (calls (sourceNodes env options))
  = omap (usableUrl env (bucketName options) (domainOf options)
            (protocolOf options)) s3Entities.
Proof.
  intros Hlist Hcontents.
  destruct (sourceNodes_listed env options response s3Entities Hlist Hcontents)
    as [_ Hper].
  unfold calls. rewrite Hper. clear.
  induction s3Entities as [|e es IH]; [reflexivity|].
  rewrite fmap_cons. simpl concat. unfold downloads in *.
  rewrite omap_app, IH. simpl omap at 2.
  pose proof (downloads_of_object env (bucketName options) (domainOf options)
                (protocolOf options) e) as He.
  unfold downloads, perEntity in *. rewrite He.
  destruct (usableUrl _ _ _ _ e) eqn:Hu; simpl; by rewrite Hu.
Qed.

Lemma downloads_are_the_usable_urls_witness :
  downloads (calls (sourceNodes
                      (sampleEnv (Some [dogPng; readmeTxt; catJpg])
                                 (fetchFailingAt catUrl))
                      sampleOptions))
  = ["https://s3.amazonaws.com/my-bucket/dog.png"; catUrl].
Proof.
  rewrite (downloads_are_the_usable_urls
             (sampleEnv (Some [dogPng; readmeTxt; catJpg])
                        (fetchFailingAt catUrl))
             sampleOptions {| Contents := Some [dogPng; readmeTxt; catJpg] |}
             [dogPng; readmeTxt; catJpg] eq_refl eq_refl).
  reflexivity.
Defined.

(** X6.  A run never makes more [createNode] calls than downloads, nor more
    downloads than the listing has objects. *)
Theorem calls_are_bounded_by_the_listing env options response s3Entities :
  listObjectsResponse env options = Fulfilled response ->
  Contents response = Some s3Entities ->
  length (createdNodes (calls (sourceNodes env options)))
  <= length (downloads (calls (sourceNodes env options)))
  /\ length (downloads (calls (sourceNodes env options)))
     <= length s3Entities.
Proof.
  intros Hlist Hcontents.
  destruct (sourceNodes_listed env options response s3Entities Hlist Hcontents)
    as [_ Hper].
  unfold calls. rewrite Hper. clear.
  induction s3Entities as [|e es IH]; [simpl; lia|].
  rewrite fmap_cons. simpl concat. unfold createdNodes, downloads in *.
  rewrite !omap_app, !length_app.
  pose proof (createdNodes_of_object env (bucketName options)
                (domainOf options) (protocolOf options) e) as He.
  unfold createdNodes, downloads, perEntity in *. simpl length. lia.
Qed.

Lemma calls_are_bounded_by_the_listing_witness :
  length (createdNodes (calls (sourceNodes
            (sampleEnv (Some [dogPng; readmeTxt; catJpg])
                       (fetchFailingAt catUrl)) sampleOptions)))
  <= length (downloads (calls (sourceNodes
               (sampleEnv (Some [dogPng; readmeTxt; catJpg])
                          (fetchFailingAt catUrl)) sampleOptions)))
  /\ length (downloads (calls (sourceNodes
               (sampleEnv (Some [dogPng; readmeTxt; catJpg])
                          (fetchFailingAt catUrl)) sampleOptions)))
     <= 3.
Proof.
  apply (calls_are_bounded_by_the_listing
           (sampleEnv (Some [dogPng; readmeTxt; catJpg])
                      (fetchFailingAt catUrl))
           sampleOptions {| Contents := Some [dogPng; readmeTxt; catJpg] |}
           [dogPng; readmeTxt; catJpg]); reflexivity.
Defined.

(** X7.  [createNode] is called for an object only after that object's own
    URL has been downloaded and the download was fulfilled with a truthy
    file node; the call comes directly after the download and is the only
    [createNode] call made for the object. *)
Theorem createNode_only_after_download env options response s3Entities i cs
    node :
  listObjectsResponse env options = Fulfilled response ->
  Contents response = Some s3Entities ->
  perObject (sourceNodes env options) !! i = Some cs ->
  CallCreateNode node ∈ cs ->
  exists entity url fileNode rest,
    s3Entities !! i = Some entity
    /\ isImage env entity = true
    /\ constructS3UrlForAsset env (bucketName options) (domainOf options)
         (lodash_get (VObj entity) "Key") (protocolOf options) = Some url
    /\ createRemoteFileNode env url = Fulfilled fileNode
    /\ truthy fileNode = true
    /\ cs = CallCreateRemoteFileNode url :: CallCreateNode node :: rest
    /\ createdNodes cs = [node].
Proof.
  intros Hlist Hcontents Hcs Hin.
  destruct (sourceNodes_listed env options response s3Entities Hlist Hcontents)
    as [_ Hper].
  rewrite Hper, list_lookup_fmap in Hcs.
  destruct (s3Entities !! i) as [entity|] eqn:Hi; [|discriminate].
  injection Hcs as <-. unfold perEntity in *.
  destruct (mapCallback_createNode _ _ _ _ _ _ Hin)
    as (url & fileNode & f & rest & Hurl & Hfetch & Hfile & _ & _ & Hrec & Hrest).
  apply usableUrl_Some in Hurl as (Himg & Hurl & _).
  exists entity, url, fileNode, rest. repeat split; try done.
  rewrite Hrec. change (node :: createdNodes rest = [node]).
  by rewrite Hrest.
Qed.

Lemma createNode_only_after_download_witness :
  exists cs node,
    perObject (sourceNodes (sampleEnv (Some [readmeTxt; catJpg]) fetchOk)
                           sampleOptions) !! 1 = Some cs
    /\ createdNodes cs = [node].
Proof.
  pose (node := nodeLiteral (sampleEnv (Some [readmeTxt; catJpg]) fetchOk)
                  catJpg catUrl catFields).
  pose (cs := [CallCreateRemoteFileNode catUrl; CallCreateNode node]).
  exists cs, node. split; [reflexivity|].
  destruct (createNode_only_after_download
              (sampleEnv (Some [readmeTxt; catJpg]) fetchOk) sampleOptions
              {| Contents := Some [readmeTxt; catJpg] |} [readmeTxt; catJpg]
              1 cs node eq_refl eq_refl eq_refl)
    as (_ & _ & _ & _ & _ & _ & _ & _ & _ & _ & Hone).
  - apply elem_of_cons. right. apply elem_of_cons. by left.
  - exact Hone.
Defined.

Lemma getEntityNodeFields_Normal env entity fileNode f :
  getEntityNodeFields env entity fileNode = Normal f ->
  exists ETag,
    entity !! "ETag" = Some (VStr ETag)
    /\ f = {| absolutePath := lodash_get fileNode "absolutePath";
              fileNodeId := lodash_get fileNode "id";
              Key := keyOrDefault entity;
              mediaType := mimeLookup env (keyOrDefault entity);
              objectHash := removeQuotes ETag |}.
Proof.
  unfold getEntityNodeFields.
  destruct (entity !! "ETag") as [[| | | |ETag|]|]; try discriminate.
  intros Hf. injection Hf as <-. by exists ETag.
Qed.

(** X8.  Every node a run hands to [createNode] belongs to a listed object
    with a string ETag and to the one download made for that object: its
    [ETag] is the object's ETag without quotes, its [id] is [createNodeId]
    of that, its [parent] and [absolutePath] come from the file node the
    download was fulfilled with, and its [internal] block names the
    downloaded URL as [content], the unquoted ETag as [contentDigest] and
    "S3ImageAsset" as [type]. *)
Theorem created_nodes_are_well_formed env options response s3Entities i cs
    node :
  listObjectsResponse env options = Fulfilled response ->
  Contents response = Some s3Entities ->
  perObject (sourceNodes env options) !! i = Some cs ->
  CallCreateNode node ∈ cs ->
  exists entity ETag url fileNode,
    s3Entities !! i = Some entity
    /\ entity !! "ETag" = Some (VStr ETag)
    /\ downloads cs = [url]
    /\ createRemoteFileNode env url = Fulfilled fileNode
    /\ node !! "ETag" = Some (VStr (removeQuotes ETag))
    /\ node !! "id" = Some (VStr (createNodeId env (removeQuotes ETag)))
    /\ node !! "parent" = Some (lodash_get fileNode "id")
    /\ node !! "absolutePath" = Some (lodash_get fileNode "absolutePath")
    /\ lodash_get (lodash_get (VObj node) "internal") "content" = VStr url
    /\ lodash_get (lodash_get (VObj node) "internal") "contentDigest"
       = VStr (removeQuotes ETag)
    /\ lodash_get (lodash_get (VObj node) "internal") "type"
       = VStr "S3ImageAsset".
Proof.
  intros Hlist Hcontents Hcs Hin.
  destruct (sourceNodes_listed env options response s3Entities Hlist Hcontents)
    as [_ Hper].
  rewrite Hper, list_lookup_fmap in Hcs.
  destruct (s3Entities !! i) as [entity|] eqn:Hi; [|discriminate].
  injection Hcs as <-. unfold perEntity in *.
  destruct (mapCallback_createNode _ _ _ _ _ _ Hin)
    as (url & fileNode & f & rest & Hurl & Hfetch & _ & Hf & -> & _ & _).
  destruct (getEntityNodeFields_Normal _ _ _ _ Hf) as (ETag & HETag & ->).
  exists entity, ETag, url, fileNode.
  split; [done|]. split; [done|].
  split; [by rewrite downloads_of_object, Hurl|]. split; [done|].
  unfold nodeLiteral, internalBlock, lodash_get. simpl.
  repeat split; by do 2 read_literal.
Qed.

Lemma created_nodes_are_well_formed_witness :
  exists entity ETag url fileNode,
    [readmeTxt; catJpg] !! 1 = Some entity
    /\ entity !! "ETag" = Some (VStr ETag)
    /\ url = catUrl
    /\ createRemoteFileNode (sampleEnv (Some [readmeTxt; catJpg]) fetchOk) url
       = Fulfilled fileNode
    /\ nodeLiteral (sampleEnv (Some [readmeTxt; catJpg]) fetchOk)
         catJpg catUrl catFields !! "id"
       = Some (VStr (createNodeId (sampleEnv (Some [readmeTxt; catJpg]) fetchOk)
                                  (removeQuotes ETag))).
Proof.
  pose (node := nodeLiteral (sampleEnv (Some [readmeTxt; catJpg]) fetchOk)
                  catJpg catUrl catFields).
  pose (cs := [CallCreateRemoteFileNode catUrl; CallCreateNode node]).
  destruct (created_nodes_are_well_formed
              (sampleEnv (Some [readmeTxt; catJpg]) fetchOk) sampleOptions
              {| Contents := Some [readmeTxt; catJpg] |} [readmeTxt; catJpg]
              1 cs node eq_refl eq_refl eq_refl)
    as (entity & ETag & url & fileNode & Hi & HETag & Hdown & Hfetch & _
        & Hid & _).
  - apply elem_of_cons. right. apply elem_of_cons. by left.
  - exists entity, ETag, url, fileNode. repeat split; try done.
    by injection Hdown.
Defined.

(** X9.  An image without an [ETag] is downloaded all the same; the
    [TypeError] raised while its fields are read is caught, no node is
    created, its slot holds [undefined], and the promise left behind is
    rejected with the string "Error creating S3ImageAsset node: " followed
    by the engine's text for that [TypeError]. *)
Theorem image_without_ETag_is_downloaded_and_dropped env options response
    s3Entities i entity url fileNode :
  listObjectsResponse env options = Fulfilled response ->
  Contents response = Some s3Entities ->
  s3Entities !! i = Some entity ->
  isImage env entity = true ->
  constructS3UrlForAsset env (bucketName options) (domainOf options)
    (lodash_get (VObj entity) "Key") (protocolOf options) = Some url ->
  url <> "" ->
  createRemoteFileNode env url = Fulfilled fileNode ->
  truthy fileNode = true ->
  lodash_get (VObj entity) "ETag" = VUndefined ->
  exists vs,
    outcome (sourceNodes env options) = Fulfilled vs
    /\ vs !! i = Some VUndefined
    /\ perObject (sourceNodes env options) !! i
       = Some [CallCreateRemoteFileNode url;
               UnawaitedRejection
                 (Thrown (VStr ("Error creating S3ImageAsset node: " +:+
                                errorText env TypeError)))].
Proof.
  intros Hlist Hcontents Hi Himg Hurl Hne Hfetch Hfile HETag.
  destruct (sourceNodes_at env options response s3Entities i entity
              Hlist Hcontents Hi) as (vs & Hout & _ & Hslot & Hcalls).
  assert (Hf : getEntityNodeFields env entity fileNode = Throw TypeError).
  { unfold getEntityNodeFields. simpl in HETag.
    destruct (entity !! "ETag") as [v|]; [by subst v | reflexivity]. }
  exists vs. revert Hslot Hcalls. unfold perEntity.
  rewrite (mapCallback_image _ _ _ _ _ url Himg Hurl Hne), tryBlock_cases.
  rewrite Hfetch, Hfile, Hf. auto.
Qed.

Lemma image_without_ETag_is_downloaded_and_dropped_witness :
  exists vs,
    outcome (sourceNodes (sampleEnv (Some [noETagPng; catJpg]) fetchOk)
                         sampleOptions) = Fulfilled vs
    /\ vs !! 0 = Some VUndefined
    /\ perObject (sourceNodes (sampleEnv (Some [noETagPng; catJpg]) fetchOk)
                              sampleOptions) !! 0
       = Some [CallCreateRemoteFileNode
                 "https://s3.amazonaws.com/my-bucket/logo.png";
               UnawaitedRejection
                 (Thrown (VStr ("Error creating S3ImageAsset node: TypeError: Cannot read property 'replace' of undefined")))].
Proof.
  apply (image_without_ETag_is_downloaded_and_dropped
           (sampleEnv (Some [noETagPng; catJpg]) fetchOk) sampleOptions
           {| Contents := Some [noETagPng; catJpg] |} [noETagPng; catJpg]
           0 noETagPng "https://s3.amazonaws.com/my-bucket/logo.png"
           (VObj (<["absolutePath" :=
                      VStr ("/cache/" +:+
                            "https://s3.amazonaws.com/my-bucket/logo.png")]>
                    (<["id" :=
                         VStr ("file-" +:+
                               "https://s3.amazonaws.com/my-bucket/logo.png")]>
                       ∅))));
    solve [reflexivity | discriminate].
Defined.

(** ** The fields of a node *)

Lemma removeQuotes_length (s : string) :
  String.length s = String.length (removeQuotes s) + countQuotes s.
Proof.
  induction s as [|c s IH]; [reflexivity|]. simpl.
  destruct (Ascii.eqb c dquote); simpl; lia.
Qed.

(** X10.  When [getEntityNodeFields] succeeds, the entity's ETag is a
    string, the hash is shorter than it by exactly the number of its
    double quotes, and the hash is the ETag itself exactly when the ETag
    has no double quote. *)
Theorem objectHash_length env entity fileNode f :
  getEntityNodeFields env entity fileNode = Normal f ->
  exists ETag,
    entity !! "ETag" = Some (VStr ETag)
    /\ String.length ETag = String.length (objectHash f) + countQuotes ETag
    /\ (objectHash f = ETag <-> countQuotes ETag = 0).
Proof.
  intros Hf.
  destruct (getEntityNodeFields_Normal _ _ _ _ Hf) as (ETag & HETag & ->).
  exists ETag. simpl. split; [done|].
  pose proof (removeQuotes_length ETag) as Hlen. split; [done|]. split.
  - intros Heq. rewrite Heq in Hlen. lia.
  - apply removeQuotes_id.
Qed.

Lemma objectHash_length_witness :
  exists ETag,
    catJpg !! "ETag" = Some (VStr ETag)
    /\ String.length ETag = String.length (objectHash catFields) + countQuotes ETag
    /\ (objectHash catFields = ETag <-> countQuotes ETag = 0).
Proof.
  apply (objectHash_length (sampleEnv None fetchOk) catJpg catFile catFields).
  reflexivity.
Defined.

(** The default for [Key] is never [undefined]. *)
Lemma keyOrDefault_defined (entity : object) :
  keyOrDefault entity <> VUndefined.
Proof.
  unfold keyOrDefault. by destruct (entity !! "Key") as [[]|].
Qed.

(** X11.  Building is idempotent: a node built from an entity, given back
    as the entity with the same file node and URL, yields the same fields
    and the very same node. *)
Theorem rebuilding_a_node_changes_nothing env entity fileNode url f :
  truthy fileNode = true ->
  getEntityNodeFields env entity fileNode = Normal f ->
  getEntityNodeFields env (nodeLiteral env entity url f) fileNode = Normal f
  /\ createS3ImageAssetNode env (nodeLiteral env entity url f) fileNode url
     = (createNode env (nodeLiteral env entity url f),
        [CallCreateNode (nodeLiteral env entity url f)]).
Proof.
  intros Hfile Hf.
  destruct (getEntityNodeFields_Normal _ _ _ _ Hf) as (ETag & HETag & Hfields).
  assert (Hkey : keyOrDefault (nodeLiteral env entity url f)
                 = keyOrDefault entity).
  { unfold keyOrDefault at 1, nodeLiteral. read_literal.
    rewrite Hfields. simpl.
    pose proof (keyOrDefault_defined entity).
    by destruct (keyOrDefault entity). }
  assert (Hagain : getEntityNodeFields env (nodeLiteral env entity url f)
                     fileNode = Normal f).
  { unfold getEntityNodeFields. rewrite Hkey.
    unfold nodeLiteral at 1. read_literal.
    rewrite Hfields. simpl.
    by rewrite (removeQuotes_id _ (removeQuotes_countQuotes ETag)). }
  split; [exact Hagain|].
  unfold createS3ImageAssetNode. rewrite Hfile, Hagain. simpl.
  assert (Hsame : nodeLiteral env (nodeLiteral env entity url f) url f
                  = nodeLiteral env entity url f).
  { unfold nodeLiteral at 1.
    rewrite (insert_id _ "absolutePath");
      [|unfold nodeLiteral; by read_literal].
    rewrite (insert_id _ "ETag"); [|unfold nodeLiteral; by read_literal].
    rewrite (insert_id _ "id"); [|unfold nodeLiteral; by read_literal].
    rewrite (insert_id _ "Key"); [|unfold nodeLiteral; by read_literal].
    rewrite (insert_id _ "parent"); [|unfold nodeLiteral; by read_literal].
    apply insert_id. unfold nodeLiteral. by read_literal. }
  by rewrite Hsame.
Qed.

Lemma rebuilding_a_node_changes_nothing_witness :
  getEntityNodeFields (sampleEnv None fetchOk)
    (nodeLiteral (sampleEnv None fetchOk) catJpg catUrl catFields) catFile
  = Normal catFields
  /\ createS3ImageAssetNode (sampleEnv None fetchOk)
       (nodeLiteral (sampleEnv None fetchOk) catJpg catUrl catFields)
       catFile catUrl
     = (createNode (sampleEnv None fetchOk)
          (nodeLiteral (sampleEnv None fetchOk) catJpg catUrl catFields),
        [CallCreateNode
           (nodeLiteral (sampleEnv None fetchOk) catJpg catUrl catFields)]).
Proof.
  apply (rebuilding_a_node_changes_nothing (sampleEnv None fetchOk) catJpg
           catFile catUrl catFields); reflexivity.
Defined.

(** X12.  An entity without a [Key] still gets a node when the builder is
    called directly: the node's [Key] is the empty string and its
    [mediaType] is what [mime.lookup] gives for the empty string. *)
Theorem node_of_entity_without_Key env entity fileNode url ETag :
  truthy fileNode = true ->
  entity !! "ETag" = Some (VStr ETag) ->
  lodash_get (VObj entity) "Key" = VUndefined ->
  exists node : object,
    createS3ImageAssetNode env entity fileNode url
      = (createNode env node, [CallCreateNode node])
    /\ node !! "Key" = Some (VStr "")
    /\ lodash_get (lodash_get (VObj node) "internal") "mediaType"
       = mimeLookup env (VStr "").
Proof.
  intros Hfile HETag HKey.
  destruct (createS3ImageAssetNode_builds env entity fileNode url ETag
              Hfile HETag) as (f & Hf & _ & Hcall).
  destruct (getEntityNodeFields_Normal _ _ _ _ Hf) as (ETag' & _ & ->).
  assert (Hdefault : keyOrDefault entity = VStr "").
  { unfold keyOrDefault. simpl in HKey.
    destruct (entity !! "Key") as [v|]; [by subst v | reflexivity]. }
  eexists. split; [exact Hcall|].
  unfold nodeLiteral, internalBlock, lodash_get. simpl. rewrite Hdefault.
  split; by do 2 read_literal.
Qed.

Lemma node_of_entity_without_Key_witness :
  exists node : object,
    createS3ImageAssetNode (sampleEnv None fetchOk) noKey catFile catUrl
      = (createNode (sampleEnv None fetchOk) node, [CallCreateNode node])
    /\ node !! "Key" = Some (VStr "")
    /\ lodash_get (lodash_get (VObj node) "internal") "mediaType"
       = mimeLookup (sampleEnv None fetchOk) (VStr "").
Proof.
  apply (node_of_entity_without_Key (sampleEnv None fetchOk) noKey catFile
           catUrl (quoted "777")); reflexivity.
Defined.
